(** * GitMan front end: the [Home] page controller (frontend/app/page.tsx)

    A shallow embedding of the React component [Home]: its nine [useState]
    cells, the mount effect, the event handlers and the continuations of the
    two awaited backend calls and of the [setTimeout] callback, followed by
    the properties of the session lifecycle stated in the specification. *)

From Stdlib Require Import String Ascii List Bool Arith Lia.
Import ListNotations.
Open Scope string_scope.
Open Scope list_scope.

(** ** JavaScript strings

    A string is a sequence of code units; the model keeps the code units
    below 256, one [ascii] each. *)
Module JS.

(** WhiteSpace and LineTerminator code units below 256: TAB, LF, VT, FF,
    CR, SP and NBSP. *)
Definition isWhiteSpace (c : ascii) : bool :=
  let n := nat_of_ascii c in
  ((n =? 9) || (n =? 10) || (n =? 11) || (n =? 12) || (n =? 13)
   || (n =? 32) || (n =? 160))%nat.

Fixpoint trimStart (s : string) : string :=
  match s with
  | EmptyString => EmptyString
  | String c s' => if isWhiteSpace c then trimStart s' else s
  end.

Fixpoint reverseOnto (s acc : string) : string :=
  match s with
  | EmptyString => acc
  | String c s' => reverseOnto s' (String c acc)
  end.

Definition reverse (s : string) : string := reverseOnto s EmptyString.

Definition trimEnd (s : string) : string := reverse (trimStart (reverse s)).

(** [String.prototype.trim]. *)
Definition trim (s : string) : string := trimEnd (trimStart s).

(** ToBoolean on a string: only the empty string is falsy. *)
Definition truthy (s : string) : bool :=
  match s with
  | EmptyString => false
  | String _ _ => true
  end.

(** A thrown value, as far as [error instanceof Error ? error.message : d]
    can tell. *)
Inductive Thrown : Type :=
| ErrorObject (message : string)
| OtherValue.

Definition messageOr (e : Thrown) (d : string) : string :=
  match e with
  | ErrorObject m => m
  | OtherValue => d
  end.

End JS.

(** ** Data model *)

Inductive Role : Type := user | assistant.

Record Message : Type := { role : Role; content : string }.

Module RepoContent.
Record t : Type := { content : string; tree : string }.
End RepoContent.

(** The instance built by [new SpeechRecognition()] in the mount effect,
    with the two properties the effect assigns. *)
Record SpeechRecognition : Type :=
  { continuous : bool; interimResults : bool }.

Inductive SpeechSynthesis : Type := WindowSpeechSynthesis.

(** The [useState] cells of [Home], in declaration order. *)
Record State : Type :=
  { repoUrl : string;
    repoContent : option RepoContent.t;
    isLoading : bool;
    error : option string;
    messages : list Message;
    input : string;
    isListening : bool;
    recognition : option SpeechRecognition;
    synthesis : option SpeechSynthesis }.

(** The values of the first render. *)
Definition initialState : State :=
  {| repoUrl := EmptyString; repoContent := None; isLoading := false; error := None;
     messages := []; input := EmptyString; isListening := false;
     recognition := None; synthesis := None |}.

(** What the page probes of the hosting [window], and the browser's verdict
    on a value of an [<input type="url">]. *)
Record Window : Type :=
  { hasSpeechRecognition : bool;
    hasWebkitSpeechRecognition : bool;
    hasSpeechSynthesis : bool;
    urlTypeMismatch : string -> bool }.

(** Calls that leave the component, in the order they are made.
    [SpeakMessage] records an invocation of the local [speakMessage];
    [SynthesisSpeak] the [synthesis.speak] it may forward to. *)
Inductive Call : Type :=
| IngestRepository (url : string)
| SendChatMessage (message url : string)
| SpeakMessage (text : string)
| SynthesisSpeak (text : string)
| RecognitionStart
| RecognitionStop
| ConsoleLog (label arg : string)
| ConsoleError (label arg : string)
| SetTimeout (ms : nat).

(** A suspended piece of a handler together with the render [r] whose
    constants its closure reads. *)
Inductive Pending : Type :=
| AwaitIngest (r : State)
| AwaitChat (r : State)
| Timer (r : State).

Record World : Type :=
  { window : Window;
    st : State;
    pending : list Pending;
    trace : list Call }.

(** ** State setters *)

Definition withRepoUrl (v : string) (s : State) : State :=
  {| repoUrl := v; repoContent := repoContent s; isLoading := isLoading s;
     error := error s; messages := messages s; input := input s;
     isListening := isListening s; recognition := recognition s;
     synthesis := synthesis s |}.

Definition withRepoContent (v : option RepoContent.t) (s : State) : State :=
  {| repoUrl := repoUrl s; repoContent := v; isLoading := isLoading s;
     error := error s; messages := messages s; input := input s;
     isListening := isListening s; recognition := recognition s;
     synthesis := synthesis s |}.

Definition withIsLoading (v : bool) (s : State) : State :=
  {| repoUrl := repoUrl s; repoContent := repoContent s; isLoading := v;
     error := error s; messages := messages s; input := input s;
     isListening := isListening s; recognition := recognition s;
     synthesis := synthesis s |}.

Definition withError (v : option string) (s : State) : State :=
  {| repoUrl := repoUrl s; repoContent := repoContent s;
     isLoading := isLoading s; error := v; messages := messages s;
     input := input s; isListening := isListening s;
     recognition := recognition s; synthesis := synthesis s |}.

Definition withMessages (f : list Message -> list Message) (s : State)
  : State :=
  {| repoUrl := repoUrl s; repoContent := repoContent s;
     isLoading := isLoading s; error := error s; messages := f (messages s);
     input := input s; isListening := isListening s;
     recognition := recognition s; synthesis := synthesis s |}.

Definition withInput (v : string) (s : State) : State :=
  {| repoUrl := repoUrl s; repoContent := repoContent s;
     isLoading := isLoading s; error := error s; messages := messages s;
     input := v; isListening := isListening s;
     recognition := recognition s; synthesis := synthesis s |}.

Definition withIsListening (v : bool) (s : State) : State :=
  {| repoUrl := repoUrl s; repoContent := repoContent s;
     isLoading := isLoading s; error := error s; messages := messages s;
     input := input s; isListening := v; recognition := recognition s;
     synthesis := synthesis s |}.

Definition withRecognition (v : option SpeechRecognition) (s : State)
  : State :=
  {| repoUrl := repoUrl s; repoContent := repoContent s;
     isLoading := isLoading s; error := error s; messages := messages s;
     input := input s; isListening := isListening s; recognition := v;
     synthesis := synthesis s |}.

Definition withSynthesis (v : option SpeechSynthesis) (s : State) : State :=
  {| repoUrl := repoUrl s; repoContent := repoContent s;
     isLoading := isLoading s; error := error s; messages := messages s;
     input := input s; isListening := isListening s;
     recognition := recognition s; synthesis := v |}.

(** ** The handler monad

    A handler reads the constants of the render it was created in and
    queues updates; the updates are applied to the current cells. *)
Definition M (A : Type) : Type := World -> A * World.

Definition ret {A : Type} (a : A) : M A := fun w => (a, w).

Definition bind {A B : Type} (m : M A) (k : A -> M B) : M B :=
  fun w => let (a, w') := m w in k a w'.

Definition exec {A : Type} (m : M A) (w : World) : World := snd (m w).

Declare Scope handler_scope.
Delimit Scope handler_scope with handler.
Notation "m1 ;; m2" := (bind m1 (fun _ => m2))
  (at level 61, right associativity) : handler_scope.
Open Scope handler_scope.

Definition modify (f : State -> State) : M unit :=
  fun w => (tt, {| window := window w; st := f (st w);
                   pending := pending w; trace := trace w |}).

Definition call (c : Call) : M unit :=
  fun w => (tt, {| window := window w; st := st w;
                   pending := pending w; trace := trace w ++ [c] |}).

(** Suspend: the rest of the handler runs when the promise settles or the
    timer elapses. *)
Definition suspend (k : Pending) : M unit :=
  fun w => (tt, {| window := window w; st := st w;
                   pending := pending w ++ [k]; trace := trace w |}).

Definition setRepoUrl (v : string) : M unit := modify (withRepoUrl v).
Definition setRepoContent (v : option RepoContent.t) : M unit :=
  modify (withRepoContent v).
Definition setIsLoading (v : bool) : M unit := modify (withIsLoading v).
Definition setError (v : option string) : M unit := modify (withError v).
Definition setMessages (f : list Message -> list Message) : M unit :=
  modify (withMessages f).
Definition setInput (v : string) : M unit := modify (withInput v).
Definition setIsListening (v : bool) : M unit := modify (withIsListening v).
Definition setRecognition (v : option SpeechRecognition) : M unit :=
  modify (withRecognition v).
Definition setSynthesis (v : option SpeechSynthesis) : M unit :=
  modify (withSynthesis v).

(** ** The component's functions *)

(** The mount effect ([useEffect] with an empty dependency list). The test
    of the first [if] parses as [(typeof window !== 'undefined' &&
    'SpeechRecognition' in window) || 'webkitSpeechRecognition' in window];
    effects run in the browser only, where [window] is defined. The
    [onresult], [onerror] and [onend] callbacks installed on the instance are
    [onresult], [onerror] and [onend] below. *)
Definition useEffect : M unit :=
  fun w =>
    let win := window w in
    ((if (true && hasSpeechRecognition win) || hasWebkitSpeechRecognition win
      then setRecognition
             (Some {| continuous := false; interimResults := false |})
      else ret tt) ;;
     (if true && hasSpeechSynthesis win
      then setSynthesis (Some WindowSpeechSynthesis)
      else ret tt)) w.

(** [recognition?.stop()] and [recognition?.start()]: the call is made only
    on an instance. *)
Definition optionalCall (rec : option SpeechRecognition) (c : Call)
  : M unit :=
  match rec with
  | Some _ => call c
  | None => ret tt
  end.

Definition toggleListening (r : State) : M unit :=
  (if isListening r
   then optionalCall (recognition r) RecognitionStop
   else optionalCall (recognition r) RecognitionStart) ;;
  setIsListening (negb (isListening r)).

Definition speakMessage (r : State) (text : string) : M unit :=
  call (SpeakMessage text) ;;
  match synthesis r with
  | Some _ => call (SynthesisSpeak text)
  | None => ret tt
  end.

Definition aiResponse : string :=
  "This is a simulated response. In a real application, this would be the response from your AI backend.".

(** [handleMessageSubmit] up to and including its [setTimeout]. *)
Definition handleMessageSubmit (r : State) (message : string) : M unit :=
  if negb (JS.truthy (JS.trim message)) then ret tt
  else
    setMessages (fun prevMessages =>
                   prevMessages ++ [{| role := user; content := message |}]) ;;
    setInput EmptyString ;;
    call (ConsoleLog "Sending message:" message) ;;
    call (SetTimeout 1000) ;;
    suspend (Timer r).

(** The callback [handleMessageSubmit] hands to [setTimeout]. *)
Definition handleMessageSubmit_timeout (r : State) : M unit :=
  setMessages (fun prevMessages =>
                 prevMessages ++ [{| role := assistant;
                                     content := aiResponse |}]) ;;
  speakMessage r aiResponse.

(** The recognition callbacks. They are created once, by the mount effect of
    the first render, so the [handleMessageSubmit] (and through it the
    [speakMessage] and [synthesis]) they reach are those of [initialState]. *)
Definition onresult (transcript : string) : M unit :=
  setInput transcript ;;
  handleMessageSubmit initialState transcript.

Definition onerror (err : string) : M unit :=
  call (ConsoleError "Speech recognition error:" err) ;;
  setIsListening false.

Definition onend : M unit := setIsListening false.

(** [handleChatSubmit] up to its [await]. *)
Definition handleChatSubmit (r : State) : M unit :=
  if negb (JS.truthy (JS.trim (input r))) || negb (JS.truthy (repoUrl r))
  then ret tt
  else
    setMessages (fun prev =>
                   prev ++ [{| role := user; content := input r |}]) ;;
    setInput EmptyString ;;
    setIsLoading true ;;
    call (SendChatMessage (input r) (repoUrl r)) ;;
    suspend (AwaitChat r).

(** The rest of the [try] block and the [finally] block, when
    [sendChatMessage] resolves with [{ response }]. *)
Definition handleChatSubmit_fulfilled (r : State) (response : string)
  : M unit :=
  setMessages (fun prev =>
                 prev ++ [{| role := assistant; content := response |}]) ;;
  speakMessage r response ;;
  setIsLoading false.

(** The [catch] and [finally] blocks. *)
Definition handleChatSubmit_rejected (r : State) (e : JS.Thrown) : M unit :=
  setError (Some (JS.messageOr e "Failed to send message")) ;;
  setIsLoading false.

Definition welcome (url : string) : string :=
  ("Repository ingested successfully! I'm ready to chat about the repository: "
   ++ url ++ ". What would you like to know?")%string.

(** [handleRepoSubmit] up to its [await]. *)
Definition handleRepoSubmit (r : State) : M unit :=
  setIsLoading true ;;
  setError None ;;
  call (IngestRepository (repoUrl r)) ;;
  suspend (AwaitIngest r).

Definition handleRepoSubmit_fulfilled (r : State) (result : RepoContent.t)
  : M unit :=
  setRepoContent (Some {| RepoContent.content := RepoContent.content result;
                          RepoContent.tree := RepoContent.tree result |}) ;;
  setMessages (fun _ => [{| role := assistant;
                            content := welcome (repoUrl r) |}]) ;;
  setIsLoading false.

Definition handleRepoSubmit_rejected (r : State) (e : JS.Thrown) : M unit :=
  setError (Some (JS.messageOr e "An error occurred")) ;;
  setRepoContent None ;;
  setIsLoading false.

(** ** What the rendered page lets through *)

(** [{repoContent && (<CardFooter> ... </CardFooter>)}]: the chat form and
    the microphone button exist only while [repoContent] is set. *)
Definition chatFormRendered (s : State) : bool :=
  match repoContent s with
  | Some _ => true
  | None => false
  end.

Inductive ValidityError : Type := ValueMissing | TypeMismatch.

(** Modelled from the spec: the [Input] and [Button] components of
    [@/components/ui] are not among the sources; the spec's form "accepting
    a repository URL (required, must be non-empty, expected to be
    URL-shaped)" is the [<Input type="url" required>] of the page handed to
    a native input, whose form is not submitted while the value is missing
    or is not a URL. *)
Definition repoFormValidity (w : World) : option ValidityError :=
  if negb (JS.truthy (repoUrl (st w))) then Some ValueMissing
  else if urlTypeMismatch (window w) (repoUrl (st w)) then Some TypeMismatch
  else None.

(** ** Events of the page *)

Inductive Settlement : Type :=
| IngestFulfilled (result : RepoContent.t)
| ChatFulfilled (response : string)
| Rejected (e : JS.Thrown)
| Elapsed.

Inductive Event : Type :=
| Mount
| ChangeRepoUrl (value : string)
| SubmitRepoForm
| ChangeInput (value : string)
| SubmitChatForm
| ClickMic
| RecognitionResult (transcript : string)
| RecognitionError (err : string)
| RecognitionEnd
| Settle (i : nat) (o : Settlement).

(** How a suspended piece goes on once its promise settles or its timer
    elapses; [None] where the settlement is not one of that piece. *)
Definition resume (k : Pending) (o : Settlement) : option (M unit) :=
  match k, o with
  | AwaitIngest r, IngestFulfilled result =>
      Some (handleRepoSubmit_fulfilled r result)
  | AwaitIngest r, Rejected e => Some (handleRepoSubmit_rejected r e)
  | AwaitChat r, ChatFulfilled response =>
      Some (handleChatSubmit_fulfilled r response)
  | AwaitChat r, Rejected e => Some (handleChatSubmit_rejected r e)
  | Timer r, Elapsed => Some (handleMessageSubmit_timeout r)
  | _, _ => None
  end.

Fixpoint removeAt {A : Type} (i : nat) (l : list A) : list A :=
  match l, i with
  | [], _ => []
  | _ :: l', O => l'
  | x :: l', S i' => x :: removeAt i' l'
  end.

Definition discharge (i : nat) (w : World) : World :=
  {| window := window w; st := st w;
     pending := removeAt i (pending w); trace := trace w |}.

(** One turn of the event loop. A handler attached to the rendered page
    runs with the current render; a control that is absent or [disabled]
    lets nothing through. *)
Definition step (w : World) (ev : Event) : World :=
  match ev with
  | Mount => exec useEffect w
  | ChangeRepoUrl v =>
      if isLoading (st w) then w else exec (setRepoUrl v) w
  | SubmitRepoForm =>
      if isLoading (st w) then w
      else match repoFormValidity w with
           | Some _ => w
           | None => exec (handleRepoSubmit (st w)) w
           end
  | ChangeInput v =>
      if chatFormRendered (st w) && negb (isLoading (st w))
      then exec (setInput v) w else w
  | SubmitChatForm =>
      if chatFormRendered (st w) && negb (isLoading (st w))
      then exec (handleChatSubmit (st w)) w else w
  | ClickMic =>
      if chatFormRendered (st w) then exec (toggleListening (st w)) w else w
  | RecognitionResult transcript =>
      match recognition (st w) with
      | Some _ => exec (onresult transcript) w
      | None => w
      end
  | RecognitionError err =>
      match recognition (st w) with
      | Some _ => exec (onerror err) w
      | None => w
      end
  | RecognitionEnd =>
      match recognition (st w) with
      | Some _ => exec onend w
      | None => w
      end
  | Settle i o =>
      match nth_error (pending w) i with
      | Some k =>
          match resume k o with
          | Some m => exec m (discharge i w)
          | None => w
          end
      | None => w
      end
  end.

Definition run (w : World) (evs : list Event) : World :=
  fold_left step evs w.

Definition initialWorld (win : Window) : World :=
  {| window := win; st := initialState; pending := []; trace := [] |}.

(** ** The session status of the specification

    The page keeps no status cell. The status is read off the cells the
    page renders from: a request is in flight while [isLoading], the chat
    form exists once [repoContent] is set, and the banner shows [error]. *)
Inductive Status : Type := Idle | Ingesting | Ready | ChatPending | Error.

Definition isAwaitIngest (k : Pending) : bool :=
  match k with
  | AwaitIngest _ => true
  | _ => false
  end.

Definition status (w : World) : Status :=
  if isLoading (st w) then
    if existsb isAwaitIngest (pending w) then Ingesting else ChatPending
  else
    match repoContent (st w), error (st w) with
    | Some _, _ => Ready
    | None, Some _ => Error
    | None, None => Idle
    end.

(** [before] is an initial segment of [after]. *)
Definition isPrefixOf {A : Type} (before after : list A) : Prop :=
  exists k, after = before ++ k.

(** Number of invocations of [speakMessage] in a trace. *)
Definition isSpeakMessage (c : Call) : bool :=
  match c with
  | SpeakMessage _ => true
  | _ => false
  end.

Definition speakCount (t : list Call) : nat :=
  length (filter isSpeakMessage t).

Definition isBackendCall (c : Call) : bool :=
  match c with
  | IngestRepository _ | SendChatMessage _ _ => true
  | _ => false
  end.

(** A browser with both speech capabilities that takes any value with a
    colon for a URL. *)
Definition hasColon (s : string) : bool :=
  match index 0 ":" s with
  | Some _ => true
  | None => false
  end.

Definition chrome : Window :=
  {| hasSpeechRecognition := false; hasWebkitSpeechRecognition := true;
     hasSpeechSynthesis := true;
     urlTypeMismatch := fun s => negb (hasColon s) |}.

(** A browser without speech recognition. *)
Definition firefox : Window :=
  {| hasSpeechRecognition := false; hasWebkitSpeechRecognition := false;
     hasSpeechSynthesis := true;
     urlTypeMismatch := fun s => negb (hasColon s) |}.

Definition someRepo : RepoContent.t :=
  {| RepoContent.content := "..."; RepoContent.tree := "..." |}.

(** A session that has ingested [https://github.com/a/b]. *)
Definition readyWorld (win : Window) : World :=
  run (initialWorld win)
      [Mount; ChangeRepoUrl "https://github.com/a/b"; SubmitRepoForm;
       Settle 0 (IngestFulfilled someRepo)].

(** A session with one completed chat turn whose user has typed the url of
    another repository. *)
Definition chattedWorld : World :=
  run (readyWorld chrome)
      [ChangeInput "what does this do?"; SubmitChatForm;
       Settle 0 (ChatFulfilled "It is a web service.");
       ChangeRepoUrl "https://github.com/c/d"].

(** The event resolves a suspended [handleRepoSubmit] with success. *)
Definition replacesLog (w : World) (ev : Event) : bool :=
  match ev with
  | Settle i (IngestFulfilled _) =>
      match nth_error (pending w) i with
      | Some (AwaitIngest _) => true
      | _ => false
      end
  | _ => false
  end.

Fixpoint replacesLogAlong (w : World) (evs : list Event) : bool :=
  match evs with
  | [] => false
  | ev :: evs' => replacesLog w ev || replacesLogAlong (step w ev) evs'
  end.

(** ** What the page shows

    The part of the returned JSX that depends on the cells: the repository
    form, the error banner, the conversation and the chat form. *)

Inductive MicGlyph : Type := MicGlyphOn | MicGlyphOff.

Inductive ButtonVariant : Type := VariantDestructive | VariantDefault.

Record ChatFormView : Type :=
  { chatInputValue : string;
    chatInputDisabled : bool;
    sendDisabled : bool;
    sendLabel : string;
    micVariant : ButtonVariant;
    micGlyph : MicGlyph }.

Record View : Type :=
  { urlValue : string;
    urlDisabled : bool;
    analyzeDisabled : bool;
    analyzeLabel : string;
    errorBanner : option string;
    conversation : option (list (string * string));
    chatForm : option ChatFormView }.

(** [message.role === 'user' ? "You: " : "Gitman: "] followed by the
    content. *)
Definition renderMessage (m : Message) : string * string :=
  match role m with
  | user => ("You: ", content m)
  | assistant => ("Gitman: ", content m)
  end.

(** [{error && (...)}]: a null and an empty [error] both render nothing.
    [{repoContent && (...)}]: an object is always truthy. *)
Definition render (s : State) : View :=
  {| urlValue := repoUrl s;
     urlDisabled := isLoading s;
     analyzeDisabled := isLoading s;
     analyzeLabel := if isLoading s then "Loading..." else "Analyze";
     errorBanner :=
       match error s with
       | Some e => if JS.truthy e then Some e else None
       | None => None
       end;
     conversation :=
       match repoContent s with
       | Some _ => Some (map renderMessage (messages s))
       | None => None
       end;
     chatForm :=
       match repoContent s with
       | Some _ =>
           Some {| chatInputValue := input s;
                   chatInputDisabled := isLoading s;
                   sendDisabled := isLoading s;
                   sendLabel := if isLoading s then "Sending..." else "Send";
                   micVariant := if isListening s then VariantDestructive
                                 else VariantDefault;
                   micGlyph := if isListening s then MicGlyphOff
                               else MicGlyphOn |}
       | None => None
       end |}.

(** ** Measures on sessions *)

Fixpoint allWhiteSpace (s : string) : bool :=
  match s with
  | EmptyString => true
  | String c s' => JS.isWhiteSpace c && allWhiteSpace s'
  end.

Definition isBackendAwait (k : Pending) : bool :=
  match k with
  | AwaitIngest _ | AwaitChat _ => true
  | Timer _ => false
  end.

Definition isAwaitChat (k : Pending) : bool :=
  match k with
  | AwaitChat _ => true
  | _ => false
  end.

(** Number of backend requests that have not settled yet. *)
Definition inFlight (w : World) : nat :=
  length (filter isBackendAwait (pending w)).

Definition isSynthesisSpeak (c : Call) : bool :=
  match c with
  | SynthesisSpeak _ => true
  | _ => false
  end.

Definition isSendChatMessage (c : Call) : bool :=
  match c with
  | SendChatMessage _ _ => true
  | _ => false
  end.

(** The render captured by a pending timer has no [synthesis]. *)
Definition timerIsMute (k : Pending) : bool :=
  match k with
  | Timer r =>
      match synthesis r with
      | Some _ => false
      | None => true
      end
  | _ => true
  end.




(** The events of the two forms' typed controls. *)
Definition isFormEvent (ev : Event) : bool :=
  match ev with
  | ChangeRepoUrl _ | SubmitRepoForm | ChangeInput _ | SubmitChatForm => true
  | _ => false
  end.

(** The busy flag counts the backend requests in flight. *)
Definition busyFlagCounts (w : World) : Prop :=
  inFlight w = if isLoading (st w) then 1 else 0.

(** Every pending timer is mute, and the utterances handed to
    [synthesis.speak] together with the asks still awaited are covered by
    the [sendChatMessage] calls made. *)
Definition spokenIsAsked (w : World) : Prop :=
  forallb timerIsMute (pending w) = true
  /\ length (filter isSynthesisSpeak (trace w))
     + length (filter isAwaitChat (pending w))
     <= length (filter isSendChatMessage (trace w)).

(** The conversation, where there is ingested content, starts with a
    welcome message. *)
Definition welcomeFirst (w : World) : Prop :=
  repoContent (st w) = None
  \/ exists url rest,
      messages (st w)
      = {| role := assistant; content := welcome url |} :: rest.

(** A call the chat guard lets through: a question that is not blank,
    about a url that is not empty. *)
Definition isGuardedCall (c : Call) : bool :=
  match c with
  | SendChatMessage message url =>
      negb (allWhiteSpace message) && JS.truthy url
  | _ => true
  end.

(** * Properties *)

(** ** Bookkeeping of suspended pieces *)

Lemma nth_error_snoc {A : Type} (l : list A) (k : A) :
  nth_error (l ++ [k]) (length l) = Some k.
Proof.
  induction l as [|x l IH]; simpl; [reflexivity | exact IH].
Qed.

Lemma removeAt_snoc {A : Type} (l : list A) (k : A) :
  removeAt (length l) (l ++ [k]) = l.
Proof.
  induction l as [|x l IH]; simpl; [reflexivity | now rewrite IH].
Qed.

Lemma existsb_snoc {A : Type} (f : A -> bool) (l : list A) (k : A) :
  existsb f (l ++ [k]) = existsb f l || f k.
Proof.
  rewrite existsb_app; simpl. now rewrite orb_false_r.
Qed.

Lemma speakCount_app (t u : list Call) :
  speakCount (t ++ u) = speakCount t + speakCount u.
Proof.
  unfold speakCount. now rewrite filter_app, length_app.
Qed.

Lemma isPrefixOf_refl {A : Type} (l : list A) : isPrefixOf l l.
Proof. exists []. now rewrite app_nil_r. Qed.

Lemma isPrefixOf_snoc {A : Type} (l : list A) (x : A) :
  isPrefixOf l (l ++ [x]).
Proof. now exists [x]. Qed.

(** Unfolds a handler down to the record it builds. *)
Ltac handler :=
  unfold exec, useEffect, toggleListening, onresult, onerror, onend,
    handleMessageSubmit, handleMessageSubmit_timeout, handleChatSubmit,
    handleChatSubmit_fulfilled, handleChatSubmit_rejected, handleRepoSubmit,
    handleRepoSubmit_fulfilled, handleRepoSubmit_rejected, optionalCall,
    speakMessage, setRepoUrl, setRepoContent, setIsLoading,
    setError, setMessages, setInput, setIsListening, setRecognition,
    setSynthesis, modify, call, suspend, bind, ret, discharge;
  simpl.

(** ** The continuations, whatever the world they resume in *)

Lemma handleRepoSubmit_fulfilled_spec (w : World) (r : State)
      (result : RepoContent.t) :
  let w' := exec (handleRepoSubmit_fulfilled r result) w in
  status w' = Ready
  /\ messages (st w')
     = [{| role := assistant; content := welcome (repoUrl r) |}]
  /\ trace w' = trace w
  /\ pending w' = pending w.
Proof. handler. repeat split; reflexivity. Qed.

Lemma handleRepoSubmit_rejected_spec (w : World) (r : State)
      (e : JS.Thrown) :
  st (exec (handleRepoSubmit_rejected r e) w)
  = withIsLoading false
      (withRepoContent None
         (withError (Some (JS.messageOr e "An error occurred")) (st w)))
  /\ trace (exec (handleRepoSubmit_rejected r e) w) = trace w.
Proof. handler. split; reflexivity. Qed.

Lemma handleChatSubmit_fulfilled_spec (w : World) (r : State)
      (response : string) :
  let w' := exec (handleChatSubmit_fulfilled r response) w in
  st w' = withIsLoading false
            (withMessages
               (fun prev =>
                  prev ++ [{| role := assistant; content := response |}])
               (st w))
  /\ trace w'
     = trace w ++ SpeakMessage response
         :: match synthesis r with
            | Some _ => [SynthesisSpeak response]
            | None => []
            end.
Proof.
  handler. destruct (synthesis r); simpl; split; try reflexivity.
  now rewrite <- app_assoc.
Qed.

Lemma handleChatSubmit_rejected_spec (w : World) (r : State)
      (e : JS.Thrown) :
  let w' := exec (handleChatSubmit_rejected r e) w in
  st w' = withIsLoading false
            (withError (Some (JS.messageOr e "Failed to send message"))
               (st w))
  /\ trace w' = trace w.
Proof. handler. split; reflexivity. Qed.

(** The synchronous part of an accepted chat submission. *)
Lemma handleChatSubmit_accepted (w : World) (r : State) :
  JS.truthy (JS.trim (input r)) = true ->
  JS.truthy (repoUrl r) = true ->
  exec (handleChatSubmit r) w
  = {| window := window w;
       st := withIsLoading true
               (withInput EmptyString
                  (withMessages
                     (fun prev =>
                        prev ++ [{| role := user; content := input r |}])
                     (st w)));
       pending := pending w ++ [AwaitChat r];
       trace := trace w ++ [SendChatMessage (input r) (repoUrl r)] |}.
Proof.
  intros Hi Hu. unfold exec, handleChatSubmit. rewrite Hi, Hu. reflexivity.
Qed.

Lemma handleRepoSubmit_spec (w : World) (r : State) :
  exec (handleRepoSubmit r) w
  = {| window := window w;
       st := withError None (withIsLoading true (st w));
       pending := pending w ++ [AwaitIngest r];
       trace := trace w ++ [IngestRepository (repoUrl r)] |}.
Proof. reflexivity. Qed.

(** Settling the piece that was suspended last. *)
Lemma step_settle_last (w : World) (l : list Pending) (k : Pending)
      (o : Settlement) (m : M unit) :
  pending w = l ++ [k] ->
  resume k o = Some m ->
  step w (Settle (length l) o)
  = exec m {| window := window w; st := st w; pending := l;
              trace := trace w |}.
Proof.
  intros Hp Hr. unfold step. rewrite Hp, nth_error_snoc, Hr.
  unfold discharge. now rewrite Hp, removeAt_snoc.
Qed.

Lemma status_Ready_inv (w : World) :
  status w = Ready ->
  isLoading (st w) = false /\ chatFormRendered (st w) = true.
Proof.
  unfold status, chatFormRendered.
  destruct (isLoading (st w)).
  - destruct (existsb isAwaitIngest (pending w)); discriminate.
  - destruct (repoContent (st w)), (error (st w)); intros H;
      try discriminate; now split.
Qed.

Lemma step_SubmitRepoForm_accepted (w : World) :
  isLoading (st w) = false ->
  repoFormValidity w = None ->
  step w SubmitRepoForm = exec (handleRepoSubmit (st w)) w.
Proof. intros Hl Hv. unfold step. now rewrite Hl, Hv. Qed.

Lemma step_SubmitChatForm_accepted (w : World) :
  status w = Ready ->
  step w SubmitChatForm = exec (handleChatSubmit (st w)) w.
Proof.
  intros H. apply status_Ready_inv in H as [Hl Hr].
  unfold step. now rewrite Hl, Hr.
Qed.

(** ** Ingestion *)

(** C3. Every successful ingest leaves the session Ready with a log that is
    exactly one assistant welcome message naming the submitted url; the only
    call made from submission to resolution is the backend request, so
    [speakMessage] is not invoked. *)
Theorem ingest_success_ready_with_welcome (w : World)
        (result : RepoContent.t) :
  isLoading (st w) = false ->
  repoFormValidity w = None ->
  let url := repoUrl (st w) in
  let w1 := step w SubmitRepoForm in
  let w2 := step w1 (Settle (length (pending w)) (IngestFulfilled result)) in
  trace w1 = trace w ++ [IngestRepository url]
  /\ status w1 = Ingesting
  /\ status w2 = Ready
  /\ messages (st w2) = [{| role := assistant; content := welcome url |}]
  /\ (exists pre post, welcome url = (pre ++ url ++ post)%string)
  /\ trace w2 = trace w1
  /\ speakCount (trace w2) = speakCount (trace w).
Proof.
  intros Hl Hv. cbv zeta.
  rewrite (step_SubmitRepoForm_accepted w Hl Hv), handleRepoSubmit_spec.
  erewrite step_settle_last; [| reflexivity | reflexivity].
  split; [reflexivity|].
  split.
  { unfold status; simpl. now rewrite existsb_snoc, orb_true_r. }
  match goal with
  | |- context [exec (handleRepoSubmit_fulfilled ?r ?res) ?w0] =>
      destruct (handleRepoSubmit_fulfilled_spec w0 r res)
        as (Hs & Hm & Ht & _)
  end.
  split; [exact Hs|]. split; [exact Hm|].
  split; [eexists; eexists; reflexivity|].
  split; [exact Ht|].
  rewrite Ht; simpl. rewrite speakCount_app.
  change (speakCount [IngestRepository (repoUrl (st w))]) with 0. lia.
Qed.

Lemma ingest_success_ready_with_welcome_witness :
  let w := run (initialWorld chrome)
               [Mount; ChangeRepoUrl "https://github.com/a/b"] in
  let w2 := run w [SubmitRepoForm; Settle 0 (IngestFulfilled someRepo)] in
  status w2 = Ready
  /\ messages (st w2)
     = [{| role := assistant;
           content := welcome "https://github.com/a/b" |}]
  /\ speakCount (trace w2) = 0.
Proof.
  pose proof (ingest_success_ready_with_welcome
                (run (initialWorld chrome)
                     [Mount; ChangeRepoUrl "https://github.com/a/b"])
                someRepo eq_refl eq_refl) as H.
  cbv zeta in H. destruct H as (_ & _ & Hs & Hm & _ & _ & Hc).
  cbv zeta. split; [exact Hs|]. split; [exact Hm | exact Hc].
Defined.

(** C10. A failing ingest changes the error message and the repository
    content only: [repoContent] becomes null, [error] is set, and every other
    cell, the message list among them, is as it was when the form was
    submitted. *)
Theorem ingest_failure_keeps_messages (w : World) (e : JS.Thrown) :
  isLoading (st w) = false ->
  repoFormValidity w = None ->
  let w1 := step w SubmitRepoForm in
  let w2 := step w1 (Settle (length (pending w)) (Rejected e)) in
  st w2 = withRepoContent None
            (withError (Some (JS.messageOr e "An error occurred")) (st w))
  /\ repoContent (st w2) = None
  /\ error (st w2) = Some (JS.messageOr e "An error occurred")
  /\ messages (st w2) = messages (st w).
Proof.
  intros Hl Hv. cbv zeta.
  rewrite (step_SubmitRepoForm_accepted w Hl Hv), handleRepoSubmit_spec.
  erewrite step_settle_last; [| reflexivity | reflexivity].
  handler. unfold withRepoContent, withError; simpl. rewrite Hl.
  repeat split; reflexivity.
Qed.

Lemma ingest_failure_keeps_messages_witness :
  let w2 := run chattedWorld
                [SubmitRepoForm; Settle 0 (Rejected (JS.ErrorObject "404"))] in
  repoContent (st w2) = None
  /\ error (st w2) = Some "404"
  /\ messages (st w2)
     = [{| role := assistant;
           content := welcome "https://github.com/a/b" |};
        {| role := user; content := "what does this do?" |};
        {| role := assistant; content := "It is a web service." |}].
Proof.
  pose proof (ingest_failure_keeps_messages chattedWorld
                (JS.ErrorObject "404") eq_refl eq_refl) as H.
  cbv zeta in H. destruct H as (_ & Hc & He & Hm).
  cbv zeta. split; [exact Hc|]. split; [exact He | exact Hm].
Defined.

(** C7. With an empty url the repository form is not submitted: the field
    is reported as missing its required value, no call is made and no cell
    changes (the world after the attempt is the world before it). *)
Theorem empty_url_rejected_locally (w : World) :
  repoUrl (st w) = EmptyString ->
  step w SubmitRepoForm = w
  /\ trace (step w SubmitRepoForm) = trace w
  /\ status (step w SubmitRepoForm) = status w
  /\ isLoading (st (step w SubmitRepoForm)) = isLoading (st w)
  /\ (isLoading (st w) = false -> repoFormValidity w = Some ValueMissing).
Proof.
  intros Hu.
  assert (Hv : repoFormValidity w = Some ValueMissing).
  { unfold repoFormValidity. now rewrite Hu. }
  assert (Hs : step w SubmitRepoForm = w).
  { unfold step. rewrite Hv. now destruct (isLoading (st w)). }
  rewrite Hs. repeat split; auto.
Qed.

Lemma empty_url_rejected_locally_witness :
  let w := step (initialWorld chrome) Mount in
  step w SubmitRepoForm = w
  /\ repoFormValidity w = Some ValueMissing.
Proof.
  pose proof (empty_url_rejected_locally
                (step (initialWorld chrome) Mount) eq_refl) as H.
  destruct H as (Hs & _ & _ & _ & Hv).
  cbv zeta. split; [exact Hs | exact (Hv eq_refl)].
Defined.

(** The guard of C7 is the form's: [handleRepoSubmit] itself calls the
    backend with whatever url its render holds. *)
Lemma handleRepoSubmit_has_no_guard (w : World) (r : State) :
  trace (exec (handleRepoSubmit r) w)
  = trace w ++ [IngestRepository (repoUrl r)].
Proof. reflexivity. Qed.

(** ** Chat turns *)

(** C4. A successful ask appends two messages, the user's text and then the
    backend's reply, and invokes [speakMessage] once, on the reply. *)
Theorem ask_success_appends_two_and_speaks_once (w : World)
        (reply : string) :
  status w = Ready ->
  JS.truthy (JS.trim (input (st w))) = true ->
  JS.truthy (repoUrl (st w)) = true ->
  let text := input (st w) in
  let w1 := step w SubmitChatForm in
  let w2 := step w1 (Settle (length (pending w)) (ChatFulfilled reply)) in
  messages (st w2)
  = messages (st w) ++ [{| role := user; content := text |};
                        {| role := assistant; content := reply |}]
  /\ length (messages (st w2)) = length (messages (st w)) + 2
  /\ trace w2
     = trace w ++ SendChatMessage text (repoUrl (st w))
         :: SpeakMessage reply
         :: match synthesis (st w) with
            | Some _ => [SynthesisSpeak reply]
            | None => []
            end
  /\ filter isSpeakMessage (trace w2)
     = filter isSpeakMessage (trace w) ++ [SpeakMessage reply]
  /\ speakCount (trace w2) = speakCount (trace w) + 1
  /\ status w2 = Ready.
Proof.
  intros Hs Hi Hu. cbv zeta.
  destruct (status_Ready_inv w Hs) as [Hl Hr].
  rewrite (step_SubmitChatForm_accepted w Hs),
    (handleChatSubmit_accepted w (st w) Hi Hu).
  erewrite step_settle_last; [| reflexivity | reflexivity].
  handler. unfold chatFormRendered in Hr. unfold status, speakCount.
  destruct (repoContent (st w)) eqn:Hrc; [| discriminate].
  destruct (synthesis (st w)); simpl;
    rewrite <- ?app_assoc, ?Hrc; simpl;
    repeat (rewrite ?filter_app, ?length_app; simpl);
    repeat split; reflexivity || lia.
Qed.

Lemma ask_success_appends_two_and_speaks_once_witness :
  let w := step (readyWorld chrome) (ChangeInput "what does this do?") in
  let w2 := run w [SubmitChatForm;
                   Settle 0 (ChatFulfilled "It is a web service.")] in
  messages (st w2)
  = messages (st w) ++ [{| role := user; content := "what does this do?" |};
                        {| role := assistant;
                           content := "It is a web service." |}]
  /\ speakCount (trace w2) = 1.
Proof.
  pose proof (ask_success_appends_two_and_speaks_once
                (step (readyWorld chrome) (ChangeInput "what does this do?"))
                "It is a web service." eq_refl eq_refl eq_refl) as H.
  cbv zeta in H. destruct H as (Hm & _ & _ & _ & Hc & _).
  cbv zeta. split; [exact Hm | exact Hc].
Defined.

(** C5. A failing ask appends the user's message only, leaves the session
    Ready and sets the error message. *)
Theorem ask_failure_appends_user_only (w : World) (e : JS.Thrown) :
  status w = Ready ->
  JS.truthy (JS.trim (input (st w))) = true ->
  JS.truthy (repoUrl (st w)) = true ->
  let text := input (st w) in
  let w1 := step w SubmitChatForm in
  let w2 := step w1 (Settle (length (pending w)) (Rejected e)) in
  messages (st w2) = messages (st w) ++ [{| role := user; content := text |}]
  /\ length (messages (st w2)) = length (messages (st w)) + 1
  /\ status w2 = Ready
  /\ error (st w2) = Some (JS.messageOr e "Failed to send message")
  /\ speakCount (trace w2) = speakCount (trace w).
Proof.
  intros Hs Hi Hu. cbv zeta.
  destruct (status_Ready_inv w Hs) as [Hl Hr].
  rewrite (step_SubmitChatForm_accepted w Hs),
    (handleChatSubmit_accepted w (st w) Hi Hu).
  erewrite step_settle_last; [| reflexivity | reflexivity].
  handler. unfold chatFormRendered in Hr. unfold status, speakCount.
  destruct (repoContent (st w)) eqn:Hrc; [| discriminate].
  simpl. rewrite Hrc, filter_app, !length_app. simpl.
  repeat split; reflexivity || lia.
Qed.

Lemma ask_failure_appends_user_only_witness :
  let w := step (readyWorld chrome) (ChangeInput "what does this do?") in
  let w2 := run w [SubmitChatForm; Settle 0 (Rejected JS.OtherValue)] in
  messages (st w2)
  = messages (st w) ++ [{| role := user; content := "what does this do?" |}]
  /\ status w2 = Ready
  /\ error (st w2) = Some "Failed to send message".
Proof.
  pose proof (ask_failure_appends_user_only
                (step (readyWorld chrome) (ChangeInput "what does this do?"))
                JS.OtherValue eq_refl eq_refl eq_refl) as H.
  cbv zeta in H. destruct H as (Hm & _ & Hs & He & _).
  cbv zeta. split; [exact Hm|]. split; [exact Hs | exact He].
Defined.

(** No path through [handleChatSubmit] writes the error cell on success:
    the cell after a fulfilled ask is the cell before the submission. *)
Lemma ask_success_keeps_error (w : World) (reply : string) :
  status w = Ready ->
  error (st (step (step w SubmitChatForm)
               (Settle (length (pending w)) (ChatFulfilled reply))))
  = error (st w).
Proof.
  intros Hs. rewrite (step_SubmitChatForm_accepted w Hs).
  unfold exec, handleChatSubmit.
  destruct (negb (JS.truthy (JS.trim (input (st w))))
            || negb (JS.truthy (repoUrl (st w)))).
  - simpl. now rewrite (proj2 (nth_error_None _ _) (le_n (length (pending w)))).
  - erewrite step_settle_last; [| reflexivity | reflexivity].
    handler. destruct (synthesis (st w)); reflexivity.
Qed.

(** C6, which the code does not meet. A first ask fails, which sets the
    error message; a second ask succeeds, and the error message is still
    there when the session is Ready again. *)
Theorem ask_success_leaves_stale_error :
  let w := run (readyWorld chrome)
               [ChangeInput "first"; SubmitChatForm;
                Settle 0 (Rejected (JS.ErrorObject "Network down"));
                ChangeInput "second"] in
  let w2 := run w [SubmitChatForm; Settle 0 (ChatFulfilled "It works.")] in
  status w = Ready
  /\ error (st w) = Some "Network down"
  /\ status (step w SubmitChatForm) = ChatPending
  /\ status w2 = Ready
  /\ error (st w2) = Some "Network down".
Proof. vm_compute. repeat split; reflexivity. Qed.

(** ** Voice capture *)

(** C9, which the code does not meet. In a browser without speech
    recognition the microphone button is rendered all the same, and a click
    starts nothing but turns [isListening] on; no recognition event is there
    to turn it off again. *)
Theorem toggle_without_recognition_sets_listening :
  let w := readyWorld firefox in
  let w' := step w ClickMic in
  recognition (st w) = None
  /\ isListening (st w) = false
  /\ trace w' = trace w
  /\ isListening (st w') = true
  /\ isListening (st (run w' [RecognitionEnd; RecognitionError "aborted"]))
     = true.
Proof. vm_compute. repeat split; reflexivity. Qed.

(** With or without an instance, [toggleListening] negates the flag of its
    render. *)
Lemma toggleListening_negates (w : World) (r : State) :
  isListening (st (exec (toggleListening r) w)) = negb (isListening r).
Proof.
  handler. destruct (isListening r), (recognition r); reflexivity.
Qed.

(** The transcript path never reaches the backend: neither [onresult] nor
    the timer callback it arms makes a backend call. *)
Lemma onresult_makes_no_backend_call (w : World) (transcript : string) :
  filter isBackendCall (trace (exec (onresult transcript) w))
  = filter isBackendCall (trace w).
Proof.
  handler. destruct (negb (JS.truthy (JS.trim transcript))); simpl;
    [reflexivity|].
  rewrite <- app_assoc, filter_app. simpl. now rewrite app_nil_r.
Qed.

Lemma timeout_makes_no_backend_call (w : World) (r : State) :
  filter isBackendCall (trace (exec (handleMessageSubmit_timeout r) w))
  = filter isBackendCall (trace w).
Proof.
  handler. destruct (synthesis r); simpl;
    rewrite <- ?app_assoc, filter_app; simpl; now rewrite app_nil_r.
Qed.

(** C1, which the code does not meet. From the same Ready session the
    transcript "hello" and the typed text "hello" part ways. The typed text
    is sent to the backend, the session is ChatPending meanwhile and the
    backend's reply is logged and spoken; the transcript is answered after
    a timer by the canned text, with no backend call, the session staying
    Ready and nothing reaching [synthesis.speak]. *)
Theorem voice_transcript_is_not_a_text_submit :
  let url := "https://github.com/a/b" in
  let w := readyWorld chrome in
  let typed1 := run w [ChangeInput "hello"; SubmitChatForm] in
  let typed2 := step typed1 (Settle 0 (ChatFulfilled "Hi there.")) in
  let voice1 := run w [ClickMic; RecognitionResult "hello"; RecognitionEnd] in
  let voice2 := step voice1 (Settle 0 Elapsed) in
  status w = Ready
  /\ status typed1 = ChatPending
  /\ status voice1 = Ready
  /\ pending typed1 = [AwaitChat (st (step w (ChangeInput "hello")))]
  /\ pending voice1 = [Timer initialState]
  /\ filter isBackendCall (trace typed2)
     = [IngestRepository url; SendChatMessage "hello" url]
  /\ filter isBackendCall (trace voice2) = [IngestRepository url]
  /\ messages (st typed2)
     = messages (st w) ++ [{| role := user; content := "hello" |};
                           {| role := assistant; content := "Hi there." |}]
  /\ messages (st voice2)
     = messages (st w) ++ [{| role := user; content := "hello" |};
                           {| role := assistant; content := aiResponse |}]
  /\ In (SynthesisSpeak "Hi there.") (trace typed2)
  /\ filter (fun c => match c with SynthesisSpeak _ => true | _ => false end)
       (trace voice2) = [].
Proof.
  vm_compute. repeat split; auto.
Qed.

(** While the session is not Ready the chat form lets nothing through. *)
Lemma typed_submit_ignored_unless_ready (w : World) :
  status w <> Ready -> step w SubmitChatForm = w.
Proof.
  unfold status, step, chatFormRendered. intros H.
  destruct (isLoading (st w)).
  - now rewrite andb_false_r.
  - destruct (repoContent (st w)); [| reflexivity].
    now contradiction H.
Qed.

(** C2, which the code does not meet. A typed question is in flight
    (ChatPending), the microphone button is still enabled, and the
    transcript that arrives is appended to the log and arms the reply
    timer. The same happens in a session whose re-ingestion is in flight
    (Ingesting) or has failed (Error). *)
Theorem voice_transcript_accepted_while_not_ready :
  let hello := {| role := user; content := "hello" |} in
  let busy := run (readyWorld chrome)
                  [ChangeInput "what does this do?"; SubmitChatForm;
                   ClickMic] in
  let ingesting := run chattedWorld [ClickMic; SubmitRepoForm] in
  let failed := step ingesting (Settle 0 (Rejected JS.OtherValue)) in
  status busy = ChatPending
  /\ messages (st (step busy (RecognitionResult "hello")))
     = messages (st busy) ++ [hello]
  /\ pending (step busy (RecognitionResult "hello"))
     = pending busy ++ [Timer initialState]
  /\ status ingesting = Ingesting
  /\ messages (st (step ingesting (RecognitionResult "hello")))
     = messages (st ingesting) ++ [hello]
  /\ status failed = Error
  /\ messages (st (step failed (RecognitionResult "hello")))
     = messages (st failed) ++ [hello].
Proof. vm_compute. repeat split; reflexivity. Qed.

(** ** The conversation log *)

Lemma isPrefixOf_trans {A : Type} (l1 l2 l3 : list A) :
  isPrefixOf l1 l2 -> isPrefixOf l2 l3 -> isPrefixOf l1 l3.
Proof.
  intros [k1 H1] [k2 H2]. exists (k1 ++ k2). subst. now rewrite app_assoc.
Qed.

Lemma resume_keeps_prefix (w : World) (k : Pending) (o : Settlement)
      (m : M unit) :
  resume k o = Some m ->
  (forall r result, (k, o) <> (AwaitIngest r, IngestFulfilled result)) ->
  isPrefixOf (messages (st w)) (messages (st (exec m w))).
Proof.
  intros Hr Hne.
  destruct k as [r|r|r], o as [result|response|e|]; simpl in Hr;
    try discriminate; injection Hr as <-.
  - now contradiction (Hne r result).
  - handler. apply isPrefixOf_refl.
  - handler. destruct (synthesis r); simpl; apply isPrefixOf_snoc.
  - handler. apply isPrefixOf_refl.
  - handler. destruct (synthesis r); simpl; apply isPrefixOf_snoc.
Qed.

(** Every operation other than the successful resolution of an ingest
    leaves the old log at the front of the new one. *)
Lemma step_keeps_prefix (w : World) (ev : Event) :
  replacesLog w ev = false ->
  isPrefixOf (messages (st w)) (messages (st (step w ev))).
Proof.
  intros Hn. destruct ev; unfold step.
  - handler.
    destruct (hasSpeechRecognition (window w)
              || hasWebkitSpeechRecognition (window w)),
      (hasSpeechSynthesis (window w)); apply isPrefixOf_refl.
  - destruct (isLoading (st w)); apply isPrefixOf_refl.
  - destruct (isLoading (st w)), (repoFormValidity w);
      apply isPrefixOf_refl.
  - destruct (chatFormRendered (st w) && negb (isLoading (st w)));
      apply isPrefixOf_refl.
  - destruct (chatFormRendered (st w) && negb (isLoading (st w)));
      [| apply isPrefixOf_refl].
    unfold exec, handleChatSubmit.
    destruct (negb (JS.truthy (JS.trim (input (st w))))
              || negb (JS.truthy (repoUrl (st w))));
      [apply isPrefixOf_refl | apply isPrefixOf_snoc].
  - destruct (chatFormRendered (st w)); [| apply isPrefixOf_refl].
    handler. destruct (isListening (st w)), (recognition (st w));
      apply isPrefixOf_refl.
  - destruct (recognition (st w)); [| apply isPrefixOf_refl].
    handler. destruct (negb (JS.truthy (JS.trim transcript)));
      [apply isPrefixOf_refl | apply isPrefixOf_snoc].
  - destruct (recognition (st w)); apply isPrefixOf_refl.
  - destruct (recognition (st w)); apply isPrefixOf_refl.
  - simpl in Hn.
    destruct (nth_error (pending w) i) as [k|]; [| apply isPrefixOf_refl].
    destruct (resume k o) as [m|] eqn:Hr; [| apply isPrefixOf_refl].
    apply (resume_keeps_prefix (discharge i w) k o m Hr).
    intros r result E. injection E as -> ->. discriminate.
Qed.

(** C8, as the code has it. The log before an operation is a prefix of the
    log after it for every operation but the successful resolution of an
    ingest, which replaces the log by one welcome message. *)
Theorem log_is_prefix_unless_ingest_succeeds (w : World) (ev : Event) :
  (replacesLog w ev = false ->
   isPrefixOf (messages (st w)) (messages (st (step w ev))))
  /\ (replacesLog w ev = true ->
      exists url,
        messages (st (step w ev))
        = [{| role := assistant; content := welcome url |}]).
Proof.
  split; [apply step_keeps_prefix|].
  intros Hy. destruct ev; try discriminate. simpl in Hy.
  destruct o; try discriminate. unfold step.
  destruct (nth_error (pending w) i) as [[r|r|r]|]; try discriminate.
  exists (repoUrl r). reflexivity.
Qed.

Lemma log_is_prefix_unless_ingest_succeeds_witness :
  let w := run (readyWorld chrome) [ChangeInput "hello"; SubmitChatForm] in
  let w' := step chattedWorld SubmitRepoForm in
  isPrefixOf (messages (st w))
    (messages (st (step w (Settle 0 (ChatFulfilled "Hi there.")))))
  /\ exists url,
       messages (st (step w' (Settle 0 (IngestFulfilled someRepo))))
       = [{| role := assistant; content := welcome url |}].
Proof.
  cbv zeta. split.
  - apply (proj1 (log_is_prefix_unless_ingest_succeeds
                    (run (readyWorld chrome)
                         [ChangeInput "hello"; SubmitChatForm])
                    (Settle 0 (ChatFulfilled "Hi there.")))).
    reflexivity.
  - apply (proj2 (log_is_prefix_unless_ingest_succeeds
                    (step chattedWorld SubmitRepoForm)
                    (Settle 0 (IngestFulfilled someRepo)))).
    reflexivity.
Defined.

(** C8 as stated fails: re-ingesting after a chat turn replaces the three
    logged messages by the welcome message of the new repository. *)
Lemma log_is_prefix_fails_on_reingest :
  ~ (forall (w : World) (ev : Event),
        isPrefixOf (messages (st w)) (messages (st (step w ev)))).
Proof.
  intros H.
  destruct (H (step chattedWorld SubmitRepoForm)
              (Settle 0 (IngestFulfilled someRepo))) as [k Hk].
  vm_compute in Hk. discriminate Hk.
Qed.

(** X14. Over any sequence of operations none of which resolves an ingest
    with success, the log only grows at its end. *)
Lemma run_keeps_prefix (evs : list Event) :
  forall w : World,
    replacesLogAlong w evs = false ->
    isPrefixOf (messages (st w)) (messages (st (run w evs))).
Proof.
  induction evs as [|ev evs IH]; intros w H; simpl in *.
  - apply isPrefixOf_refl.
  - apply orb_false_elim in H as [H1 H2].
    eapply isPrefixOf_trans.
    + apply (step_keeps_prefix w ev H1).
    + apply IH, H2.
Qed.

(** * Further properties of the page *)

(** ** The blank-text guard *)

Lemma truthy_trimStart (s : string) :
  JS.truthy (JS.trimStart s) = negb (allWhiteSpace s).
Proof.
  induction s as [|c s IH]; simpl; [reflexivity|].
  destruct (JS.isWhiteSpace c); simpl; [exact IH | reflexivity].
Qed.

Lemma allWhiteSpace_trimStart (s : string) :
  allWhiteSpace (JS.trimStart s) = allWhiteSpace s.
Proof.
  induction s as [|c s IH]; simpl; [reflexivity|].
  destruct (JS.isWhiteSpace c) eqn:E; simpl; [exact IH | now rewrite E].
Qed.

Lemma allWhiteSpace_reverseOnto (s acc : string) :
  allWhiteSpace (JS.reverseOnto s acc) = allWhiteSpace s && allWhiteSpace acc.
Proof.
  revert acc. induction s as [|c s IH]; intros acc; simpl; [reflexivity|].
  rewrite IH. simpl.
  destruct (JS.isWhiteSpace c), (allWhiteSpace s); reflexivity.
Qed.

Lemma truthy_reverseOnto (s acc : string) :
  JS.truthy (JS.reverseOnto s acc) = JS.truthy s || JS.truthy acc.
Proof.
  revert acc. induction s as [|c s IH]; intros acc; simpl; [reflexivity|].
  rewrite IH. simpl. now rewrite orb_true_r.
Qed.

(** [!text.trim()] holds exactly of the texts made of white space only. *)
Lemma truthy_trim (s : string) :
  JS.truthy (JS.trim s) = negb (allWhiteSpace s).
Proof.
  unfold JS.trim, JS.trimEnd, JS.reverse.
  rewrite truthy_reverseOnto, orb_false_r, truthy_trimStart.
  rewrite allWhiteSpace_reverseOnto, andb_true_r.
  now rewrite allWhiteSpace_trimStart.
Qed.

Lemma truthy_false_iff (s : string) :
  JS.truthy s = false <-> s = EmptyString.
Proof. destruct s; simpl; split; congruence. Qed.

Lemma snoc_neq {A : Type} (l : list A) (x : A) : l ++ [x] <> l.
Proof.
  intros H. apply (f_equal (@length A)) in H.
  rewrite length_app in H. simpl in H. lia.
Qed.

(** X1. In a Ready session the chat form's submission leaves the page as
    it is exactly when the typed text is all white space or the url field
    is empty; any other text starts an ask. *)
Theorem chat_submit_ignored_iff_blank (w : World) :
  status w = Ready ->
  step w SubmitChatForm = w
  <-> allWhiteSpace (input (st w)) = true \/ repoUrl (st w) = EmptyString.
Proof.
  intros Hs. rewrite (step_SubmitChatForm_accepted w Hs). split.
  - intros H.
    destruct (allWhiteSpace (input (st w))) eqn:Ea; [now left | right].
    destruct (JS.truthy (repoUrl (st w))) eqn:Eu;
      [| now apply truthy_false_iff].
    rewrite handleChatSubmit_accepted in H;
      [| now rewrite truthy_trim, Ea | exact Eu].
    apply (f_equal trace) in H. simpl in H. now apply snoc_neq in H.
  - intros H. unfold exec, handleChatSubmit. rewrite truthy_trim.
    destruct H as [-> | ->]; simpl; [reflexivity|].
    now rewrite orb_true_r.
Qed.

Lemma chat_submit_ignored_iff_blank_witness :
  let w := step (readyWorld chrome) (ChangeInput "   ") in
  step w SubmitChatForm = w.
Proof.
  cbv zeta.
  apply (proj2 (chat_submit_ignored_iff_blank
                  (step (readyWorld chrome) (ChangeInput "   ")) eq_refl)).
  left. reflexivity.
Defined.

(** What [onresult] does with a transcript that is not blank. *)
Lemma transcript_step (w : World) (transcript : string) :
  recognition (st w) <> None ->
  allWhiteSpace transcript = false ->
  st (step w (RecognitionResult transcript))
  = withInput EmptyString
      (withMessages
         (fun prev => prev ++ [{| role := user; content := transcript |}])
         (st w))
  /\ pending (step w (RecognitionResult transcript))
     = pending w ++ [Timer initialState]
  /\ trace (step w (RecognitionResult transcript))
     = trace w ++ [ConsoleLog "Sending message:" transcript;
                   SetTimeout 1000].
Proof.
  intros Hr Hb. unfold step.
  destruct (recognition (st w)); [| congruence].
  unfold exec, onresult, handleMessageSubmit, bind at 1. simpl.
  rewrite truthy_trim, Hb. simpl.
  split; [reflexivity|]. split; [reflexivity|].
  now rewrite <- app_assoc.
Qed.

(** X2. A transcript made of white space only is written to the input cell
    and nothing else happens; any other transcript is logged verbatim as a
    user message, the input cell is emptied and one timer of 1000 ms is
    armed. Neither makes a backend call or sets [isLoading]. *)
Theorem transcript_blank_or_logged (w : World) (transcript : string) :
  recognition (st w) <> None ->
  let w' := step w (RecognitionResult transcript) in
  (allWhiteSpace transcript = true ->
   w' = exec (setInput transcript) w)
  /\ (allWhiteSpace transcript = false ->
      st w' = withInput EmptyString
                (withMessages
                   (fun prev =>
                      prev ++ [{| role := user; content := transcript |}])
                   (st w))
      /\ pending w' = pending w ++ [Timer initialState]
      /\ trace w' = trace w ++ [ConsoleLog "Sending message:" transcript;
                                SetTimeout 1000])
  /\ isLoading (st w') = isLoading (st w).
Proof.
  intros Hr. cbv zeta. unfold step.
  destruct (recognition (st w)); [| congruence].
  unfold exec, onresult, handleMessageSubmit, bind at 1. simpl.
  rewrite truthy_trim.
  destruct (allWhiteSpace transcript); simpl.
  - split; [reflexivity|]. split; [discriminate | reflexivity].
  - split; [discriminate|]. split; [| reflexivity].
    intros _. split; [reflexivity|]. split; [reflexivity|].
    now rewrite <- app_assoc.
Qed.

Lemma transcript_blank_or_logged_witness :
  let w := readyWorld chrome in
  input (st (step w (RecognitionResult "  "))) = "  "
  /\ messages (st (step w (RecognitionResult "hello")))
     = messages (st w) ++ [{| role := user; content := "hello" |}].
Proof.
  assert (Hr : recognition (st (readyWorld chrome)) <> None)
    by (vm_compute; discriminate).
  pose proof (transcript_blank_or_logged (readyWorld chrome) "  " Hr) as H1.
  pose proof (transcript_blank_or_logged (readyWorld chrome) "hello" Hr)
    as H2.
  cbv zeta in H1, H2. cbv zeta. split.
  - destruct H1 as (Hb & _). now rewrite (Hb eq_refl).
  - destruct H2 as (_ & Hn & _). destruct (Hn eq_refl) as (Hst & _).
    now rewrite Hst.
Defined.

(** ** One backend request at a time *)

Lemma filter_removeAt_length {A : Type} (f : A -> bool) (l : list A)
      (i : nat) (k : A) :
  nth_error l i = Some k ->
  length (filter f (removeAt i l)) + (if f k then 1 else 0)
  = length (filter f l).
Proof.
  revert i. induction l as [|x l IH]; intros [|i] H; simpl in *;
    try discriminate.
  - injection H as ->. destruct (f k); simpl; lia.
  - specialize (IH i H). destruct (f x); simpl; lia.
Qed.

Lemma filter_snoc_length {A : Type} (f : A -> bool) (l : list A) (k : A) :
  length (filter f (l ++ [k]))
  = length (filter f l) + (if f k then 1 else 0).
Proof.
  rewrite filter_app, length_app. simpl. now destruct (f k).
Qed.

Lemma step_keeps_busyFlagCounts (w : World) (ev : Event) :
  busyFlagCounts w -> busyFlagCounts (step w ev).
Proof.
  unfold busyFlagCounts, inFlight. intros I.
  destruct ev; unfold step.
  - handler.
    destruct (hasSpeechRecognition (window w)
              || hasWebkitSpeechRecognition (window w)),
      (hasSpeechSynthesis (window w)); exact I.
  - destruct (isLoading (st w)) eqn:El; simpl; rewrite ?El; exact I.
  - destruct (isLoading (st w)) eqn:El; [now rewrite El|].
    destruct (repoFormValidity w); [now rewrite El|].
    handler. rewrite filter_snoc_length, I. reflexivity.
  - destruct (chatFormRendered (st w) && negb (isLoading (st w)));
      exact I.
  - destruct (chatFormRendered (st w)); simpl; [| exact I].
    destruct (isLoading (st w)) eqn:El; simpl; [now rewrite El|].
    unfold exec, handleChatSubmit.
    destruct (negb (JS.truthy (JS.trim (input (st w))))
              || negb (JS.truthy (repoUrl (st w)))); simpl;
      [now rewrite El|].
    rewrite filter_snoc_length, I. reflexivity.
  - destruct (chatFormRendered (st w)); [| exact I].
    handler. destruct (isListening (st w)), (recognition (st w)); exact I.
  - destruct (recognition (st w)); [| exact I].
    handler. destruct (negb (JS.truthy (JS.trim transcript))); simpl;
      [exact I|].
    rewrite filter_snoc_length, I. simpl. lia.
  - destruct (recognition (st w)); exact I.
  - destruct (recognition (st w)); exact I.
  - destruct (nth_error (pending w) i) as [k|] eqn:En; [| exact I].
    pose proof (filter_removeAt_length isBackendAwait _ _ _ En) as Hc.
    destruct k as [r|r|r], o as [result|response|e|]; simpl; try exact I;
      simpl in Hc; handler;
      try (destruct (synthesis r); simpl);
      destruct (isLoading (st w)); lia.
Qed.

(** X3. In every session (any sequence of events from the first render) at
    most one backend request is in flight, and [isLoading] is true exactly
    while there is one. *)
Theorem at_most_one_request_in_flight (win : Window) (evs : list Event) :
  let w := run (initialWorld win) evs in
  inFlight w <= 1 /\ (isLoading (st w) = true <-> inFlight w = 1).
Proof.
  cbv zeta.
  assert (I : busyFlagCounts (run (initialWorld win) evs)).
  { assert (G : forall w, busyFlagCounts w -> busyFlagCounts (run w evs)).
    { induction evs as [|ev evs IH]; intros w Hw; simpl; [exact Hw|].
      apply IH, step_keeps_busyFlagCounts, Hw. }
    apply G. reflexivity. }
  unfold busyFlagCounts in I. rewrite I.
  destruct (isLoading (st (run (initialWorld win) evs))); split;
    try lia; split; congruence.
Qed.

(** ** What is spoken *)

Lemma forallb_removeAt {A : Type} (f : A -> bool) (l : list A) (i : nat) :
  forallb f l = true -> forallb f (removeAt i l) = true.
Proof.
  revert i. induction l as [|x l IH]; intros [|i] H; simpl in *;
    try reflexivity; apply andb_true_iff in H as [Hx Hl];
    [exact Hl | now rewrite Hx, IH].
Qed.

Lemma forallb_nth_error {A : Type} (f : A -> bool) (l : list A) (i : nat)
      (k : A) :
  forallb f l = true -> nth_error l i = Some k -> f k = true.
Proof.
  intros H E. apply nth_error_In in E.
  now apply (proj1 (forallb_forall f l) H).
Qed.

Lemma forallb_snoc {A : Type} (f : A -> bool) (l : list A) (k : A) :
  forallb f (l ++ [k]) = forallb f l && f k.
Proof.
  rewrite forallb_app. simpl. now rewrite andb_true_r.
Qed.

Lemma step_keeps_spokenIsAsked (w : World) (ev : Event) :
  spokenIsAsked w -> spokenIsAsked (step w ev).
Proof.
  unfold spokenIsAsked. intros [Hm Hc].
  destruct ev; unfold step.
  - handler.
    destruct (hasSpeechRecognition (window w)
              || hasWebkitSpeechRecognition (window w)),
      (hasSpeechSynthesis (window w)); now split.
  - destruct (isLoading (st w)); now split.
  - destruct (isLoading (st w)); [now split|].
    destruct (repoFormValidity w); [now split|].
    handler. rewrite forallb_snoc, Hm, !filter_snoc_length. simpl.
    split; [reflexivity | lia].
  - destruct (chatFormRendered (st w) && negb (isLoading (st w)));
      now split.
  - destruct (chatFormRendered (st w) && negb (isLoading (st w)));
      [| now split].
    unfold exec, handleChatSubmit.
    destruct (negb (JS.truthy (JS.trim (input (st w))))
              || negb (JS.truthy (repoUrl (st w)))); simpl; [now split|].
    rewrite forallb_snoc, Hm, !filter_snoc_length. simpl.
    split; [reflexivity | lia].
  - destruct (chatFormRendered (st w)); [| now split].
    handler.
    destruct (isListening (st w)), (recognition (st w)); simpl;
      rewrite ?filter_snoc_length; simpl; split; trivial; lia.
  - destruct (recognition (st w)); [| now split].
    handler. destruct (negb (JS.truthy (JS.trim transcript))); simpl;
      [now split|].
    rewrite forallb_snoc, Hm, !filter_snoc_length. simpl.
    split; [reflexivity | lia].
  - destruct (recognition (st w)); [| now split].
    handler. rewrite !filter_snoc_length. simpl. split; [exact Hm | lia].
  - destruct (recognition (st w)); now split.
  - destruct (nth_error (pending w) i) as [k|] eqn:En; [| now split].
    pose proof (filter_removeAt_length isAwaitChat _ _ _ En) as Ha.
    pose proof (forallb_nth_error _ _ _ _ Hm En) as Hk.
    pose proof (forallb_removeAt timerIsMute _ i Hm) as Hm'.
    destruct k as [r|r|r], o as [result|response|e|]; simpl;
      try (now split); simpl in Ha, Hk; handler.
    + split; [exact Hm' | lia].
    + split; [exact Hm' | lia].
    + destruct (synthesis r); simpl; rewrite !filter_snoc_length; simpl;
        (split; [exact Hm' | lia]).
    + split; [exact Hm' | lia].
    + destruct (synthesis r); [discriminate|]. simpl.
      rewrite !filter_snoc_length. simpl. split; [exact Hm' | lia].
Qed.

(** X4. In every session the utterances handed to [synthesis.speak] never
    outnumber the [sendChatMessage] calls, and every pending reply timer
    holds a render without [synthesis]: the simulated reply to a transcript
    is never spoken, whatever the browser offers. *)
Theorem only_backend_replies_are_spoken (win : Window)
        (evs : list Event) :
  let w := run (initialWorld win) evs in
  length (filter isSynthesisSpeak (trace w))
  <= length (filter isSendChatMessage (trace w))
  /\ forallb timerIsMute (pending w) = true.
Proof.
  cbv zeta.
  assert (G : forall w, spokenIsAsked w -> spokenIsAsked (run w evs)).
  { induction evs as [|ev evs IH]; intros w Hw; simpl; [exact Hw|].
    apply IH, step_keeps_spokenIsAsked, Hw. }
  destruct (G (initialWorld win)) as [Hm Hc].
  - split; [reflexivity | simpl; lia].
  - split; [lia | exact Hm].
Qed.

(** ** Voice capture: toggling and the recognition callbacks *)

Lemma withIsListening_back (s : State) (b : bool) :
  isListening s = b -> withIsListening b (withIsListening (negb b) s) = s.
Proof. intros <-. now destruct s. Qed.



(** X6. A capture that ends without a transcript, by [onerror] or by
    [onend], leaves every cell as it was before the microphone was clicked:
    nothing is logged, no error banner is set and no reply is pending; the
    error is only written to the console. *)
Theorem capture_without_transcript_restores_state (w : World)
        (err : string) :
  chatFormRendered (st w) = true ->
  isListening (st w) = false ->
  recognition (st w) <> None ->
  let failed := run w [ClickMic; RecognitionError err] in
  let ended := run w [ClickMic; RecognitionEnd] in
  st failed = st w
  /\ pending failed = pending w
  /\ trace failed
     = trace w ++ [RecognitionStart;
                   ConsoleError "Speech recognition error:" err]
  /\ st ended = st w
  /\ pending ended = pending w
  /\ trace ended = trace w ++ [RecognitionStart].
Proof.
  intros Hr Hl Hn. cbv zeta. unfold run, fold_left, step. rewrite Hr.
  destruct (recognition (st w)) as [rec|] eqn:Er; [| congruence].
  handler. rewrite Hl, Er. simpl. rewrite Er. simpl.
  rewrite <- app_assoc. simpl.
  pose proof (withIsListening_back (st w) false Hl) as Hb. simpl in Hb.
  repeat split; exact Hb.
Qed.

Lemma capture_without_transcript_restores_state_witness :
  let w := readyWorld chrome in
  st (run w [ClickMic; RecognitionError "no-speech"]) = st w
  /\ st (run w [ClickMic; RecognitionEnd]) = st w.
Proof.
  assert (Hn : recognition (st (readyWorld chrome)) <> None)
    by (vm_compute; discriminate).
  pose proof (capture_without_transcript_restores_state
                (readyWorld chrome) "no-speech" eq_refl eq_refl Hn) as H.
  cbv zeta in H. destruct H as (Hf & _ & _ & He & _).
  cbv zeta. split; [exact Hf | exact He].
Defined.

(** ** The mount effect *)


(** ** Which repository a question is about *)

(** X8. The url sent with a question is the one in the url field when the
    question is submitted, not the one that was ingested: editing the field
    after the ingest redirects the next ask and leaves the ingested content
    in place, and emptying the field makes the chat form ignore every
    submission. *)
Theorem chat_asks_about_the_url_field (w : World) (v : string) :
  status w = Ready ->
  allWhiteSpace (input (st w)) = false ->
  let w' := run w [ChangeRepoUrl v; SubmitChatForm] in
  (JS.truthy v = true ->
   trace w' = trace w ++ [SendChatMessage (input (st w)) v]
   /\ repoContent (st w') = repoContent (st w))
  /\ (v = EmptyString -> w' = step w (ChangeRepoUrl v)).
Proof.
  intros Hs Hb. cbv zeta.
  destruct (status_Ready_inv w Hs) as [Hl Hr].
  assert (H1 : step w (ChangeRepoUrl v) = exec (setRepoUrl v) w)
    by (unfold step; now rewrite Hl).
  assert (Hs1 : status (exec (setRepoUrl v) w) = Ready)
    by (unfold status in *; handler; exact Hs).
  unfold run, fold_left. rewrite H1.
  rewrite (step_SubmitChatForm_accepted _ Hs1). split.
  - intros Hv. rewrite handleChatSubmit_accepted;
      [| simpl; now rewrite truthy_trim, Hb | exact Hv].
    now split.
  - intros ->. unfold exec at 1, handleChatSubmit. simpl.
    now rewrite orb_true_r.
Qed.

Lemma chat_asks_about_the_url_field_witness :
  let w := step (readyWorld chrome) (ChangeInput "what does this do?") in
  trace (run w [ChangeRepoUrl "https://github.com/c/d"; SubmitChatForm])
  = trace w ++ [SendChatMessage "what does this do?"
                  "https://github.com/c/d"].
Proof.
  pose proof (chat_asks_about_the_url_field
                (step (readyWorld chrome) (ChangeInput "what does this do?"))
                "https://github.com/c/d" eq_refl eq_refl) as H.
  cbv zeta in H. destruct H as (H & _).
  cbv zeta. exact (proj1 (H eq_refl)).
Defined.

(** ** Frames *)



(** ** The busy flag *)

(** X10. While [isLoading] is set the four typed controls do nothing, and
    the only event that clears the flag is the settlement of a backend
    request: there is no time-out and no cancellation. *)
Theorem busy_until_request_settles (w : World) (ev : Event) :
  isLoading (st w) = true ->
  (isFormEvent ev = true -> step w ev = w)
  /\ (isLoading (st (step w ev)) = false ->
      exists i o k,
        ev = Settle i o
        /\ nth_error (pending w) i = Some k
        /\ isBackendAwait k = true).
Proof.
  intros Hl. split.
  - destruct ev; try discriminate; intros _; unfold step; rewrite Hl;
      rewrite ?andb_false_r; reflexivity.
  - destruct ev; unfold step; rewrite ?Hl; rewrite ?andb_false_r;
      try congruence.
    + handler.
      destruct (hasSpeechRecognition (window w)
                || hasWebkitSpeechRecognition (window w)),
        (hasSpeechSynthesis (window w)); simpl; congruence.
    + destruct (chatFormRendered (st w)); [| congruence].
      handler. destruct (isListening (st w)), (recognition (st w)); simpl;
        congruence.
    + destruct (recognition (st w)); [| congruence].
      handler. destruct (negb (JS.truthy (JS.trim transcript))); simpl;
        congruence.
    + destruct (recognition (st w)); simpl; congruence.
    + destruct (recognition (st w)); simpl; congruence.
    + destruct (nth_error (pending w) i) as [k|] eqn:En; [| congruence].
      destruct k as [r|r|r], o as [result|response|e|]; simpl;
        try congruence; intros H;
        try (exists i; eexists; eexists; split; [reflexivity|];
             split; [exact En | reflexivity]).
      revert H. handler. destruct (synthesis r); simpl; congruence.
Qed.

Lemma busy_until_request_settles_witness :
  let w := run (readyWorld chrome)
               [ChangeInput "what does this do?"; SubmitChatForm] in
  step w (ChangeInput "again") = w
  /\ step w SubmitRepoForm = w.
Proof.
  pose proof (busy_until_request_settles
                (run (readyWorld chrome)
                     [ChangeInput "what does this do?"; SubmitChatForm]))
    as H.
  cbv zeta. split.
  - exact (proj1 (H (ChangeInput "again") eq_refl) eq_refl).
  - exact (proj1 (H SubmitRepoForm eq_refl) eq_refl).
Defined.

(** ** What the page shows after a request *)

(** X11. After a failing ingest the page shows neither the conversation nor
    the chat form, although the messages are still in the state; the banner
    shows the error message unless that message is empty, in which case the
    failure shows nothing at all; the repository form is enabled again. *)
Theorem failed_ingest_hides_conversation (w : World) (e : JS.Thrown) :
  isLoading (st w) = false ->
  repoFormValidity w = None ->
  let w2 := run w [SubmitRepoForm;
                   Settle (length (pending w)) (Rejected e)] in
  let msg := JS.messageOr e "An error occurred" in
  let v := render (st w2) in
  conversation v = None
  /\ chatForm v = None
  /\ errorBanner v = (if JS.truthy msg then Some msg else None)
  /\ analyzeDisabled v = false
  /\ analyzeLabel v = "Analyze"
  /\ urlValue v = repoUrl (st w)
  /\ messages (st w2) = messages (st w).
Proof.
  intros Hl Hv. cbv zeta. unfold run, fold_left.
  rewrite (step_SubmitRepoForm_accepted w Hl Hv), handleRepoSubmit_spec.
  erewrite step_settle_last; [| reflexivity | reflexivity].
  handler. unfold render; simpl. repeat split; reflexivity.
Qed.

Lemma failed_ingest_hides_conversation_witness :
  let w2 := run chattedWorld
                [SubmitRepoForm; Settle 0 (Rejected (JS.ErrorObject ""))] in
  conversation (render (st w2)) = None
  /\ errorBanner (render (st w2)) = None
  /\ length (messages (st w2)) = 3.
Proof.
  pose proof (failed_ingest_hides_conversation chattedWorld
                (JS.ErrorObject EmptyString) eq_refl eq_refl) as H.
  cbv zeta in H. destruct H as (Hc & _ & Hb & _ & _ & _ & Hm).
  cbv zeta. split; [exact Hc|]. split; [exact Hb|].
  exact (f_equal (@length Message) Hm).
Defined.

(** X12. While an accepted question is awaited the page shows the user's
    text as the last line of the conversation, an emptied and disabled chat
    input with a Send button reading "Sending...", and a disabled
    repository form whose button reads "Loading...". *)
Theorem pending_ask_view (w : World) :
  status w = Ready ->
  allWhiteSpace (input (st w)) = false ->
  JS.truthy (repoUrl (st w)) = true ->
  let v := render (st (step w SubmitChatForm)) in
  conversation v
  = Some (map renderMessage (messages (st w)) ++ [("You: ", input (st w))])
  /\ chatForm v
     = Some {| chatInputValue := EmptyString;
               chatInputDisabled := true;
               sendDisabled := true;
               sendLabel := "Sending...";
               micVariant := if isListening (st w) then VariantDestructive
                             else VariantDefault;
               micGlyph := if isListening (st w) then MicGlyphOff
                           else MicGlyphOn |}
  /\ urlDisabled v = true
  /\ analyzeDisabled v = true
  /\ analyzeLabel v = "Loading...".
Proof.
  intros Hs Hb Hu. cbv zeta.
  destruct (status_Ready_inv w Hs) as [Hl Hr].
  rewrite (step_SubmitChatForm_accepted w Hs), handleChatSubmit_accepted;
    [| now rewrite truthy_trim, Hb | exact Hu].
  unfold chatFormRendered in Hr. unfold render; simpl.
  destruct (repoContent (st w)); [| discriminate].
  rewrite map_app. simpl. repeat split; reflexivity.
Qed.

Lemma pending_ask_view_witness :
  let w := step (readyWorld chrome) (ChangeInput "what does this do?") in
  analyzeLabel (render (st (step w SubmitChatForm))) = "Loading..."
  /\ conversation (render (st (step w SubmitChatForm)))
     = Some [("Gitman: ", welcome "https://github.com/a/b");
             ("You: ", "what does this do?")].
Proof.
  pose proof (pending_ask_view
                (step (readyWorld chrome) (ChangeInput "what does this do?"))
                eq_refl eq_refl eq_refl) as H.
  cbv zeta in H. destruct H as (Hc & _ & _ & _ & Hl).
  cbv zeta. split; [exact Hl | exact Hc].
Defined.

(** ** The head of the conversation *)

Lemma step_keeps_welcomeFirst (w : World) (ev : Event) :
  welcomeFirst w -> welcomeFirst (step w ev).
Proof.
  unfold welcomeFirst. intros I.
  assert (K : forall y : Message,
             repoContent (st w) = None
             \/ exists url rest,
                 messages (st w) ++ [y]
                 = {| role := assistant; content := welcome url |} :: rest).
  { intros y. destruct I as [Hn | (url & rest & Hm)]; [now left | right].
    exists url, (rest ++ [y]). now rewrite Hm. }
  destruct ev; unfold step.
  - handler.
    destruct (hasSpeechRecognition (window w)
              || hasWebkitSpeechRecognition (window w)),
      (hasSpeechSynthesis (window w)); exact I.
  - destruct (isLoading (st w)); exact I.
  - destruct (isLoading (st w)), (repoFormValidity w); exact I.
  - destruct (chatFormRendered (st w) && negb (isLoading (st w)));
      exact I.
  - destruct (chatFormRendered (st w) && negb (isLoading (st w)));
      [| exact I].
    unfold exec, handleChatSubmit.
    destruct (negb (JS.truthy (JS.trim (input (st w))))
              || negb (JS.truthy (repoUrl (st w)))); simpl;
      [exact I | apply K].
  - destruct (chatFormRendered (st w)); [| exact I].
    handler. destruct (isListening (st w)), (recognition (st w)); exact I.
  - destruct (recognition (st w)); [| exact I].
    handler. destruct (negb (JS.truthy (JS.trim transcript))); simpl;
      [exact I | apply K].
  - destruct (recognition (st w)); exact I.
  - destruct (recognition (st w)); exact I.
  - destruct (nth_error (pending w) i) as [k|]; [| exact I].
    destruct k as [r|r|r], o as [result|response|e|]; simpl; try exact I;
      handler; destruct (synthesis r); simpl;
      first [ exact I
            | apply K
            | right; exists (repoUrl r), []; reflexivity
            | left; reflexivity ].
Qed.

(** X13. In every session, whenever the page shows the conversation its
    first line is the assistant's welcome message: the messages logged
    before an ingest succeeds, or kept through a failed one, never head a
    displayed conversation. *)
Theorem shown_conversation_starts_with_welcome (win : Window)
        (evs : list Event) :
  match conversation (render (st (run (initialWorld win) evs))) with
  | Some lines =>
      exists url rest, lines = ("Gitman: ", welcome url) :: rest
  | None => True
  end.
Proof.
  assert (G : forall w, welcomeFirst w -> welcomeFirst (run w evs)).
  { induction evs as [|ev evs IH]; intros w Hw; simpl; [exact Hw|].
    apply IH, step_keeps_welcomeFirst, Hw. }
  specialize (G (initialWorld win) (or_introl eq_refl)).
  unfold render; simpl.
  destruct G as [Hn | (url & rest & Hm)].
  - now rewrite Hn.
  - destruct (repoContent (st (run (initialWorld win) evs))); [| exact I].
    exists url, (map renderMessage rest). now rewrite Hm.
Qed.

(** ** The log over several operations *)

Lemma run_keeps_prefix_witness :
  let evs := [ChangeInput "hello"; SubmitChatForm;
              Settle 0 (ChatFulfilled "Hi there."); ClickMic;
              RecognitionResult "and now?"; RecognitionEnd;
              Settle 0 Elapsed] in
  isPrefixOf (messages (st (readyWorld chrome)))
    (messages (st (run (readyWorld chrome) evs))).
Proof.
  cbv zeta.
  apply (run_keeps_prefix
           [ChangeInput "hello"; SubmitChatForm;
            Settle 0 (ChatFulfilled "Hi there."); ClickMic;
            RecognitionResult "and now?"; RecognitionEnd; Settle 0 Elapsed]
           (readyWorld chrome)).
  reflexivity.
Defined.

(** ** What is sent to the backend *)

Lemma step_keeps_guarded_calls (w : World) (ev : Event) :
  forallb isGuardedCall (trace w) = true ->
  forallb isGuardedCall (trace (step w ev)) = true.
Proof.
  intros I. destruct ev; unfold step.
  - handler.
    destruct (hasSpeechRecognition (window w)
              || hasWebkitSpeechRecognition (window w)),
      (hasSpeechSynthesis (window w)); exact I.
  - destruct (isLoading (st w)); exact I.
  - destruct (isLoading (st w)), (repoFormValidity w); try exact I.
    handler. now rewrite forallb_snoc, I.
  - destruct (chatFormRendered (st w) && negb (isLoading (st w)));
      exact I.
  - destruct (chatFormRendered (st w) && negb (isLoading (st w)));
      [| exact I].
    unfold exec, handleChatSubmit. rewrite truthy_trim.
    destruct (allWhiteSpace (input (st w))) eqn:Ea; simpl; [exact I|].
    destruct (JS.truthy (repoUrl (st w))) eqn:Eu; simpl; [| exact I].
    rewrite forallb_snoc, I. simpl. now rewrite Ea, Eu.
  - destruct (chatFormRendered (st w)); [| exact I].
    handler. destruct (isListening (st w)), (recognition (st w)); simpl;
      rewrite ?forallb_snoc, I; reflexivity.
  - destruct (recognition (st w)); [| exact I].
    handler. destruct (negb (JS.truthy (JS.trim transcript))); simpl;
      [exact I|].
    now rewrite !forallb_snoc, I.
  - destruct (recognition (st w)); [| exact I].
    handler. now rewrite forallb_snoc, I.
  - destruct (recognition (st w)); exact I.
  - destruct (nth_error (pending w) i) as [k|]; [| exact I].
    destruct k as [r|r|r], o as [result|response|e|]; simpl; try exact I;
      handler; destruct (synthesis r); simpl;
      rewrite ?forallb_snoc, I; reflexivity.
Qed.

(** X15. In every session each question sent to the backend has a text
    that is not all white space and goes with a url that is not empty. *)
Theorem backend_is_never_asked_a_blank_question (win : Window)
        (evs : list Event) (message url : string) :
  In (SendChatMessage message url) (trace (run (initialWorld win) evs)) ->
  allWhiteSpace message = false /\ url <> EmptyString.
Proof.
  assert (G : forall w,
             forallb isGuardedCall (trace w) = true ->
             forallb isGuardedCall (trace (run w evs)) = true).
  { induction evs as [|ev evs IH]; intros w Hw; simpl; [exact Hw|].
    apply IH, step_keeps_guarded_calls, Hw. }
  specialize (G (initialWorld win) eq_refl).
  intros Hin.
  apply (proj1 (forallb_forall _ _) G) in Hin. simpl in Hin.
  apply andb_true_iff in Hin as [Ha Hu]. split.
  - now destruct (allWhiteSpace message).
  - intros ->. discriminate.
Qed.

Lemma backend_is_never_asked_a_blank_question_witness :
  allWhiteSpace "what does this do?" = false
  /\ "https://github.com/a/b" <> EmptyString.
Proof.
  apply (backend_is_never_asked_a_blank_question chrome
           [Mount; ChangeRepoUrl "https://github.com/a/b"; SubmitRepoForm;
            Settle 0 (IngestFulfilled someRepo);
            ChangeInput "what does this do?"; SubmitChatForm]).
  vm_compute. right. left. reflexivity.
Defined.

(** ** The page during a re-ingest *)

(** X16. While a repository is being ingested again the error banner is
    gone, the conversation of the previous repository stays on the page
    unchanged, and the chat form is shown disabled with its button reading
    "Sending..." although nothing is being sent. *)
Theorem reingest_view (w : World) :
  status w = Ready ->
  repoFormValidity w = None ->
  let w1 := step w SubmitRepoForm in
  let v := render (st w1) in
  errorBanner v = None
  /\ conversation v = conversation (render (st w))
  /\ (exists form,
         chatForm v = Some form
         /\ chatInputDisabled form = true
         /\ sendDisabled form = true
         /\ sendLabel form = "Sending...")
  /\ analyzeLabel v = "Loading..."
  /\ trace w1 = trace w ++ [IngestRepository (repoUrl (st w))].
Proof.
  intros Hs Hv. cbv zeta.
  destruct (status_Ready_inv w Hs) as [Hl Hr].
  rewrite (step_SubmitRepoForm_accepted w Hl Hv), handleRepoSubmit_spec.
  unfold chatFormRendered in Hr. unfold render; simpl.
  destruct (repoContent (st w)); [| discriminate].
  repeat split. eexists. repeat split.
Qed.

Lemma reingest_view_witness :
  let v := render (st (step chattedWorld SubmitRepoForm)) in
  analyzeLabel v = "Loading..."
  /\ conversation v = conversation (render (st chattedWorld)).
Proof.
  pose proof (reingest_view chattedWorld eq_refl eq_refl) as H.
  cbv zeta in H. destruct H as (_ & Hc & _ & Hl & _).
  cbv zeta. split; [exact Hl | exact Hc].
Defined.

(** ** A voice turn from transcript to reply *)

(** X17. A transcript that is not blank is answered, once its timer
    elapses, by the canned text whatever was said: the log grows by the
    transcript and the canned reply, [speakMessage] is invoked on the
    canned text without reaching [synthesis.speak], no backend call is made
    and the busy flag, the error message and the pending requests are as
    they were. *)
Theorem voice_turn_gets_the_canned_reply (w : World) (transcript : string) :
  recognition (st w) <> None ->
  allWhiteSpace transcript = false ->
  let w1 := step w (RecognitionResult transcript) in
  let w2 := step w1 (Settle (length (pending w)) Elapsed) in
  messages (st w2)
  = messages (st w) ++ [{| role := user; content := transcript |};
                        {| role := assistant; content := aiResponse |}]
  /\ trace w2
     = trace w ++ [ConsoleLog "Sending message:" transcript;
                   SetTimeout 1000; SpeakMessage aiResponse]
  /\ pending w2 = pending w
  /\ isLoading (st w2) = isLoading (st w)
  /\ error (st w2) = error (st w)
  /\ input (st w2) = EmptyString.
Proof.
  intros Hr Hb. cbv zeta.
  destruct (transcript_step w transcript Hr Hb) as (Hst & Hp & Ht).
  remember (step w (RecognitionResult transcript)) as w1 eqn:E. clear E.
  erewrite step_settle_last; [| exact Hp | reflexivity].
  handler. rewrite Hst, Ht. simpl.
  rewrite <- !app_assoc. simpl. repeat split; reflexivity.
Qed.

Lemma voice_turn_gets_the_canned_reply_witness :
  let w := readyWorld chrome in
  messages (st (run w [RecognitionResult "hello"; Settle 0 Elapsed]))
  = messages (st w) ++ [{| role := user; content := "hello" |};
                        {| role := assistant; content := aiResponse |}].
Proof.
  assert (Hn : recognition (st (readyWorld chrome)) <> None)
    by (vm_compute; discriminate).
  pose proof (voice_turn_gets_the_canned_reply (readyWorld chrome) "hello"
                Hn eq_refl) as H.
  cbv zeta in H. destruct H as (Hm & _).
  cbv zeta. exact Hm.
Defined.
